(** * SongVote: verification of [scripts/import_registry.py]

    The script is a command-line helper: it inspects [sys.argv], prints either
    a usage hint or four lines of instructions, and returns.  The development
    below embeds the fragment of the Python runtime the script relies on
    ([len], list subscription, [print] and the text stream it writes to, the
    exit status of a script), then the script itself, and proves the
    behavioural properties of the specification against that embedding.

    A Python [str] is modelled by a [string] of bytes, its encoding in UTF-8
    with the [surrogateescape] handler ([os.fsencode]): for an item of
    [sys.argv] these are the bytes of the command-line argument, and for the
    literals of the script, which are ASCII, the characters themselves.  The
    standard output is modelled at the level of the text stream
    [sys.stdout]: the text it has accepted, and which texts its encoder
    refuses. *)

From Stdlib Require Import String Ascii List ZArith NArith Lia Bool.
Import ListNotations.

Local Open Scope string_scope.
Local Open Scope Z_scope.

(* ===================================================================== *)
(** * Text utilities *)
(* ===================================================================== *)

Module Text.

(** The line feed character and the one-character string made of it
    (Python ["\n"]). *)
Definition LF : ascii := "010"%char.
Definition nl : string := String LF EmptyString.

(** [has_lf s]: does [s] contain a line feed (Python ["\n" in s])? *)
Fixpoint has_lf (s : string) : bool :=
  match s with
  | EmptyString => false
  | String c s' => Ascii.eqb c LF || has_lf s'
  end.

(** [count_lf s]: number of line feeds in [s] (Python [s.count("\n")]). *)
Fixpoint count_lf (s : string) : nat :=
  match s with
  | EmptyString => O
  | String c s' => if Ascii.eqb c LF then S (count_lf s') else count_lf s'
  end.

(** [split_nl s] cuts [s] at every line feed: the text before the first
    line feed, and the list of the segments that follow one. *)
Fixpoint split_nl (s : string) : string * list string :=
  match s with
  | EmptyString => (EmptyString, [])
  | String c s' =>
      let (h, t) := split_nl s' in
      if Ascii.eqb c LF then (EmptyString, h :: t) else (String c h, t)
  end.

(** Python [s.split("\n")]: never empty; the last segment is the text that
    follows the last line feed (empty when [s] ends with one). *)
Definition lines (s : string) : list string :=
  let (h, t) := split_nl s in h :: t.

(** The first line of a text: everything before the first line feed. *)
Definition first_line (s : string) : string := fst (split_nl s).

(** The newline-terminated lines of a text, and what follows the last
    line feed. *)
Definition terminated_lines (s : string) : list string := removelast (lines s).
Definition trailing (s : string) : string := last (lines s) EmptyString.

(** Python [s.startswith(p)]. *)
Fixpoint starts_with (p s : string) : bool :=
  match p, s with
  | EmptyString, _ => true
  | String a p', String b s' => Ascii.eqb a b && starts_with p' s'
  | String _ _, EmptyString => false
  end.

(** Python [sub in s]. *)
Fixpoint contains (sub s : string) : bool :=
  starts_with sub s ||
  match s with
  | EmptyString => false
  | String _ s' => contains sub s'
  end.

(** Python [s.isascii()]: every byte is below 128. *)
Definition ascii_char (c : ascii) : bool :=
  match c with
  | Ascii _ _ _ _ _ _ _ b7 => negb b7
  end.

Fixpoint is_ascii (s : string) : bool :=
  match s with
  | EmptyString => true
  | String c s' => ascii_char c && is_ascii s'
  end.

(** [between lo hi c]: the byte [c] lies in the range [lo..hi]. *)
Definition between (lo hi : N) (c : ascii) : bool :=
  ((lo <=? N_of_ascii c) && (N_of_ascii c <=? hi))%N.

(** A continuation byte of UTF-8, [80..BF]. *)
Definition continuation (c : ascii) : bool := between 128 191 c.

(** [utf8_wellformed s]: the bytes of [s] are the UTF-8 encoding of a
    sequence of Unicode scalar values, as the strict decoder of Python
    accepts them: no overlong form, no surrogate, nothing above U+10FFFF.
    Decoded with [surrogateescape], such bytes give a [str] without lone
    surrogate, and any other bytes a [str] with one. *)
Fixpoint utf8_wellformed (s : string) : bool :=
  match s with
  | EmptyString => true
  | String b0 s1 =>
      if between 0 127 b0 then utf8_wellformed s1
      else if between 194 223 b0 then
        match s1 with
        | String b1 s2 => continuation b1 && utf8_wellformed s2
        | _ => false
        end
      else if between 224 239 b0 then
        match s1 with
        | String b1 (String b2 s3) =>
            (if between 224 224 b0 then between 160 191 b1
             else if between 237 237 b0 then between 128 159 b1
             else continuation b1)
            && continuation b2 && utf8_wellformed s3
        | _ => false
        end
      else if between 240 244 b0 then
        match s1 with
        | String b1 (String b2 (String b3 s4)) =>
            (if between 240 240 b0 then between 144 191 b1
             else if between 244 244 b0 then between 128 143 b1
             else continuation b1)
            && continuation b2 && continuation b3 && utf8_wellformed s4
        | _ => false
        end
      else false
  end.

End Text.

(* ===================================================================== *)
(** * The fragment of the Python runtime used by the script *)
(* ===================================================================== *)

Module Py.

(** Exceptions the embedded operations can raise. *)
Inductive exc : Type :=
| IndexError
| UnicodeEncodeError
| FileNotFoundError.

(** What the interpreter itself reports on [sys.stderr]: the warning for
    an invalid escape sequence in a string literal, found when the script
    is compiled (with the line of the literal and the escaped character),
    and the traceback of an exception nothing caught. *)
Inductive report : Type :=
| InvalidEscapeWarning (line : Z) (c : ascii)
| Traceback (e : exc).

(** The part of the process environment a script can act on: the text
    accepted by [sys.stdout], the reports made on [sys.stderr], the file
    system, the environment variables and the data sent over the network;
    and the setting of the interpreter it runs under: which texts beyond
    ASCII the encoder of [sys.stdout] (its encoding and error handler)
    accepts, and whether invalid escape sequences are reported (it
    depends on the version of Python and on the warning filters). *)
Record world : Type := mkWorld {
  stdout  : string;
  stderr  : list report;
  files   : string -> option string;
  environ : string -> option string;
  network : list string;
  stdout_accepts : string -> bool;
  warns_invalid_escape : bool
}.

(** Encoders of [sys.stdout].  [utf-8] with [errors="strict"], the
    setting under a UTF-8 locale, refuses a lone surrogate, that is, bytes
    of an argument that are not well-formed UTF-8; [utf-8] with
    [errors="surrogateescape"] writes them back as they came; [ascii] with
    [errors="strict"] accepts nothing beyond ASCII. *)
Definition utf8_strict : string -> bool := Text.utf8_wellformed.
Definition utf8_surrogateescape : string -> bool := fun _ => true.
Definition ascii_strict : string -> bool := fun _ => false.

(** A fresh process environment: nothing written yet, the standard output
    encoded in UTF-8, strictly, and no warning for invalid escapes. *)
Definition empty_world : world :=
  mkWorld EmptyString [] (fun _ => None) (fun _ => None) [] utf8_strict false.

(** How a computation ends: normally with a value, or with an exception
    that propagates. *)
Inductive outcome (A : Type) : Type :=
| Returned (a : A)
| Raised (e : exc).
Arguments Returned {A} a.
Arguments Raised {A} e.

(** Computations: they transform the world and end with an outcome. *)
Definition M (A : Type) : Type := world -> outcome A * world.

Definition ret {A : Type} (a : A) : M A := fun w => (Returned a, w).

Definition raise {A : Type} (e : exc) : M A := fun w => (Raised e, w).

Definition bind {A B : Type} (c : M A) (k : A -> M B) : M B :=
  fun w =>
    match c w with
    | (Returned a, w') => k a w'
    | (Raised e, w') => (Raised e, w')
    end.

(** The world after [sys.stdout] has accepted [text], and after the
    interpreter has made a report on [sys.stderr]. *)
Definition write_stdout (text : string) (w : world) : world :=
  mkWorld (stdout w ++ text) (stderr w) (files w) (environ w) (network w)
          (stdout_accepts w) (warns_invalid_escape w).

Definition report_stderr (r : report) (w : world) : world :=
  mkWorld (stdout w) (stderr w ++ [r]) (files w) (environ w) (network w)
          (stdout_accepts w) (warns_invalid_escape w).

(** The same world with the standard output emptied, and with another
    file system, other environment variables and other network data. *)
Definition fresh_stdout (w : world) : world :=
  mkWorld EmptyString (stderr w) (files w) (environ w) (network w)
          (stdout_accepts w) (warns_invalid_escape w).

Definition with_resources (fs env : string -> option string)
           (net : list string) (w : world) : world :=
  mkWorld (stdout w) (stderr w) fs env net
          (stdout_accepts w) (warns_invalid_escape w).

(** Can the encoder of [sys.stdout] encode [text]?  ASCII text always:
    every encoding Python gives the standard streams contains ASCII. *)
Definition encodable (w : world) (text : string) : bool :=
  Text.is_ascii text || stdout_accepts w text.

(** [sys.stdout.write(text)]: the text is encoded at once; when the
    encoder refuses it, [UnicodeEncodeError] is raised and nothing of
    [text] is written. *)
Definition write (text : string) : M unit :=
  fun w =>
    if encodable w text then (Returned tt, write_stdout text w)
    else (Raised UnicodeEncodeError, w).

(** The arguments of [print], written one by one with [sep=" "] between
    them. *)
Fixpoint write_args (args : list string) : M unit :=
  match args with
  | [] => ret tt
  | a :: rest =>
      match rest with
      | [] => write a
      | _ :: _ => bind (write a) (fun _ => bind (write " ") (fun _ => write_args rest))
      end
  end.

(** [print] applied to positional arguments, with the default [sep=" "],
    [end="\n"] and [file=sys.stdout]; every argument the script passes is
    already a [str].  Each piece is a write of its own, so what was
    written before a piece that is refused stays written. *)
Definition print (args : list string) : M unit :=
  bind (write_args args) (fun _ => write Text.nl).

(** [len(l)]. *)
Definition len (l : list string) : Z := Z.of_nat (length l).

(** [l[i]]: a negative index counts from the end; an index out of range
    raises [IndexError]. *)
Definition getitem (l : list string) (i : Z) : M string :=
  let j := if i <? 0 then i + len l else i in
  if (j <? 0) || (len l <=? j) then raise IndexError
  else match nth_error l (Z.to_nat j) with
       | Some x => ret x
       | None => raise IndexError
       end.

(** ** Operations the script does not call

    They are what the frame properties of the script exclude. *)

(** [open(path).read()]. *)
Definition open_read (path : string) : M string :=
  fun w =>
    match files w path with
    | Some text => (Returned text, w)
    | None => (Raised FileNotFoundError, w)
    end.

(** [open(path, "w").write(text)]. *)
Definition open_write (path text : string) : M unit :=
  fun w =>
    (Returned tt,
     mkWorld (stdout w) (stderr w)
             (fun p => if String.eqb p path then Some text else files w p)
             (environ w) (network w)
             (stdout_accepts w) (warns_invalid_escape w)).

(** [os.environ.get(key)] and [os.environ[key] = value]. *)
Definition environ_get (key : string) : M (option string) :=
  fun w => (Returned (environ w key), w).

Definition environ_set (key value : string) : M unit :=
  fun w =>
    (Returned tt,
     mkWorld (stdout w) (stderr w) (files w)
             (fun k => if String.eqb k key then Some value else environ w k)
             (network w) (stdout_accepts w) (warns_invalid_escape w)).

(** [sock.sendall(data)] on a connected socket. *)
Definition sendall (data : string) : M unit :=
  fun w =>
    (Returned tt,
     mkWorld (stdout w) (stderr w) (files w) (environ w)
             (network w ++ [data]) (stdout_accepts w) (warns_invalid_escape w)).

End Py.

Notation "x <- c ;; k" := (Py.bind c (fun x => k))
  (at level 61, c at next level, right associativity).
Notation "c ;; k" := (Py.bind c (fun _ => k))
  (at level 61, right associativity).

(* ===================================================================== *)
(** * The script *)
(* ===================================================================== *)

(** [def main()], with [sys.argv] made an explicit argument. *)
Definition main (argv : list string) : Py.M unit :=
  if Py.len argv <? 2 then
    Py.print ["Usage: python scripts/import_registry.py /path/to/ect66_units.csv"] ;;
    Py.ret tt
  else
    path <- Py.getitem argv 1 ;;
    Py.print ["CSV path:"; path] ;;
    Py.print ["Run: psql <conn> -f db/staging_import.sql"] ;;
    Py.print ["Then: \copy staging_units FROM '...csv...' WITH (FORMAT csv, HEADER true);"] ;;
    Py.print ["Then run the INSERT statements in staging_import.sql"].

(** Compiling the script: the literal of line 12 holds the invalid escape
    sequence backslash-c, which is kept as it is written and which the
    interpreter reports when it is set to. *)
Definition compile_script (w : Py.world) : Py.world :=
  if Py.warns_invalid_escape w
  then Py.report_stderr (Py.InvalidEscapeWarning 12 "c"%char) w
  else w.

(** The script run as a program ([if __name__ == "__main__": main()]): it
    is compiled, then [main] is called; the exit status is 0 when [main]
    returns, and 1, after the traceback on [sys.stderr], when an exception
    escapes. *)
Definition run_script (argv : list string) (w : Py.world) : Z * Py.world :=
  match main argv (compile_script w) with
  | (Py.Returned _, w') => (0, w')
  | (Py.Raised e, w') => (1, Py.report_stderr (Py.Traceback e) w')
  end.

(** The text the script prints when started in a fresh environment. *)
Definition transcript (argv : list string) : string :=
  Py.stdout (snd (run_script argv Py.empty_world)).

(** The text a run of the script adds to the standard output of [w]. *)
Definition output (w : Py.world) (argv : list string) : string :=
  Py.stdout (snd (run_script argv (Py.fresh_stdout w))).

(** The arguments supplied by the user: everything after the program name. *)
Definition user_args (argv : list string) : list string := tl argv.

(** The standard output of [w] can encode the path argument of [argv], if
    there is one. *)
Definition path_printable (w : Py.world) (argv : list string) : bool :=
  match nth_error argv 1 with
  | Some path => Py.encodable w path
  | None => true
  end.

(** The texts of the five [print] calls of [main], in source order. *)
Definition usage_line : string :=
  "Usage: python scripts/import_registry.py /path/to/ect66_units.csv".
Definition echo_line (path : string) : string := "CSV path: " ++ path.
Definition run_line : string := "Run: psql <conn> -f db/staging_import.sql".
Definition copy_line : string :=
  "Then: \copy staging_units FROM '...csv...' WITH (FORMAT csv, HEADER true);".
Definition insert_line : string :=
  "Then run the INSERT statements in staging_import.sql".

(** The text of the four [print] calls made when a path is given, each
    with its final line feed. *)
Definition path_text (path : string) : string :=
  echo_line path ++ Text.nl
  ++ run_line ++ Text.nl
  ++ copy_line ++ Text.nl
  ++ insert_line ++ Text.nl.

(** A command-line argument that is no UTF-8: the single byte FF. *)
Definition byte_FF : string := String "255"%char EmptyString.

(** A world like the fresh one whose standard output can write back any
    bytes ([errors="surrogateescape"]). *)
Definition lenient_world : Py.world :=
  Py.mkWorld EmptyString [] (fun _ => None) (fun _ => None) []
             Py.utf8_surrogateescape false.


(** ** Properties of a run, as the specification words them *)

(** The run prints the echo of the path argument and the three
    instructions. *)
Definition prints_path_text (w : Py.world) (argv : list string) : Prop :=
  exists P,
    nth_error argv 1 = Some P /\
    Py.stdout (snd (main argv w)) =
      Py.stdout w
      ++ "CSV path: " ++ P ++ Text.nl
      ++ "Run: psql <conn> -f db/staging_import.sql" ++ Text.nl
      ++ "Then: \copy staging_units FROM '...csv...' WITH (FORMAT csv, HEADER true);"
      ++ Text.nl
      ++ "Then run the INSERT statements in staging_import.sql" ++ Text.nl.

(** The first line of the output is the label followed by [P]. *)
Definition first_line_is_echo (w : Py.world) (argv : list string)
           (P : string) : Prop :=
  Text.first_line (output w argv) = "CSV path: " ++ P.

(** The output is made of exactly four newline-terminated lines: the echo
    of [P], then the three instructions, and nothing after them. *)
Definition four_lines_exactly (w : Py.world) (argv : list string)
           (P : string) : Prop :=
  Text.terminated_lines (output w argv)
    = ["CSV path: " ++ P; run_line; copy_line; insert_line]
  /\ Text.trailing (output w argv) = EmptyString.

(** Two runs on the same arguments print the same text and end with the
    same status. *)
Definition same_run (w1 w2 : Py.world) (argv : list string) : Prop :=
  output w1 argv = output w2 argv
  /\ fst (run_script argv w1) = fst (run_script argv w2).


(* ===================================================================== *)
(** * Facts about texts *)
(* ===================================================================== *)

Section TextFacts.

Import Text.

Lemma append_nil_r (s : string) : s ++ "" = s.
Proof. induction s as [|c s IH]; simpl; [reflexivity | now rewrite IH]. Qed.

Lemma append_assoc (a b c : string) : (a ++ b) ++ c = a ++ (b ++ c).
Proof. induction a as [|x a IH]; simpl; [reflexivity | now rewrite IH]. Qed.

Lemma has_lf_app (a b : string) : has_lf (a ++ b) = has_lf a || has_lf b.
Proof.
  induction a as [|x a IH]; simpl; [reflexivity |].
  rewrite IH. now rewrite orb_assoc.
Qed.

Lemma count_lf_app (a b : string) :
  count_lf (a ++ b) = (count_lf a + count_lf b)%nat.
Proof.
  induction a as [|x a IH]; simpl; [reflexivity |].
  rewrite IH. now destruct (Ascii.eqb x LF).
Qed.

Lemma count_lf_zero (s : string) : has_lf s = false -> count_lf s = 0%nat.
Proof.
  induction s as [|x s IH]; simpl; [reflexivity |].
  destruct (Ascii.eqb x LF); simpl; [discriminate | exact IH].
Qed.

(** Cutting a text whose first segment is known. *)
Lemma split_nl_line (a b : string) :
  has_lf a = false -> split_nl (a ++ nl ++ b) = (a, lines b).
Proof.
  unfold lines. change (nl ++ b) with (String LF b).
  induction a as [|x a IH]; simpl; intros H.
  - now destruct (split_nl b).
  - apply orb_false_iff in H as [Hx Ha].
    rewrite (IH Ha), Hx. reflexivity.
Qed.

Lemma lines_line (a b : string) :
  has_lf a = false -> lines (a ++ nl ++ b) = a :: lines b.
Proof.
  intros H. unfold lines at 1. now rewrite (split_nl_line a b H).
Qed.

(** [lines] has one more segment than the text has line feeds. *)
Lemma length_split_nl (s : string) :
  length (snd (split_nl s)) = count_lf s.
Proof.
  induction s as [|x s IH]; simpl; [reflexivity |].
  destruct (split_nl s) as [h t]; simpl in *.
  destruct (Ascii.eqb x LF); simpl; now rewrite ?IH.
Qed.

Lemma length_lines (s : string) : length (lines s) = S (count_lf s).
Proof.
  unfold lines. pose proof (length_split_nl s) as H.
  destruct (split_nl s) as [h t]; simpl in *. now rewrite H.
Qed.

Lemma length_terminated_lines (s : string) :
  length (terminated_lines s) = count_lf s.
Proof.
  unfold terminated_lines.
  pose proof (length_lines s) as H.
  destruct (lines s) as [|h t] eqn:E; [discriminate |].
  assert (Hsplit : h :: t = (removelast (h :: t) ++ [last (h :: t) ""])%list)
    by (apply app_removelast_last; discriminate).
  apply (f_equal (@List.length string)) in Hsplit.
  rewrite H, length_app in Hsplit. cbn [List.length] in Hsplit. lia.
Qed.

(** [starts_with] and [contains] decide the expected relations. *)
Lemma starts_with_iff (p s : string) :
  starts_with p s = true <-> exists post, s = p ++ post.
Proof.
  revert s. induction p as [|a p IH]; intros s; simpl.
  - split; [intros _; now exists s | reflexivity].
  - destruct s as [|b s].
    + split; [discriminate | intros [post H]; discriminate].
    + rewrite andb_true_iff, Ascii.eqb_eq, IH. split.
      * intros [-> [post ->]]. now exists post.
      * intros [post H]. injection H as -> ->. split; [reflexivity | now exists post].
Qed.

Lemma contains_iff (sub s : string) :
  contains sub s = true <-> exists pre post, s = pre ++ sub ++ post.
Proof.
  induction s as [|c s IH].
  - cbn [contains]. rewrite orb_false_r, starts_with_iff. split.
    + intros [post H]. now exists "", post.
    + intros [pre [post H]]. destruct pre; [now exists post | discriminate].
  - cbn [contains]. rewrite orb_true_iff, starts_with_iff, IH. split.
    + intros [[post H] | [pre [post H]]].
      * now exists "", post.
      * exists (String c pre), post. simpl. now rewrite H.
    + intros [pre [post H]]. destruct pre as [|x pre].
      * left. now exists post.
      * right. simpl in H. injection H as _ H. now exists pre, post.
Qed.

(** Cutting at a line feed in the middle: the segments of both sides. *)
Lemma lines_app_nl (a b : string) :
  lines (a ++ nl ++ b) = (lines a ++ lines b)%list.
Proof.
  change (nl ++ b) with (String LF b). unfold lines.
  induction a as [|x a IH]; simpl.
  - now destruct (split_nl b).
  - destruct (split_nl (a ++ String LF b)) as [h t],
             (split_nl a) as [ha ta], (split_nl b) as [hb tb].
    simpl in IH. injection IH as -> ->.
    now destruct (Ascii.eqb x LF).
Qed.

(** A text without line feed is its own single segment. *)
Lemma lines_no_lf (s : string) : has_lf s = false -> lines s = [s].
Proof.
  unfold lines.
  induction s as [|x s IH]; simpl; intros H; [reflexivity |].
  apply orb_false_iff in H as [Hx Hs]. specialize (IH Hs).
  destruct (split_nl s) as [h t]. rewrite Hx.
  now injection IH as -> ->.
Qed.

Lemma lines_nonempty (s : string) : lines s <> [].
Proof. unfold lines. now destruct (split_nl s). Qed.

Lemma first_line_hd (s : string) : first_line s = hd "" (lines s).
Proof. unfold first_line, lines. now destruct (split_nl s). Qed.

(** A prefix without line feed stays in front of the first line. *)
Lemma first_line_app (a b : string) :
  has_lf a = false -> first_line (a ++ b) = a ++ first_line b.
Proof.
  unfold first_line.
  induction a as [|x a IH]; simpl; intros H; [reflexivity |].
  apply orb_false_iff in H as [Hx Ha].
  specialize (IH Ha). rewrite Hx.
  destruct (split_nl (a ++ b)) as [h t]. simpl in *. now rewrite IH.
Qed.

Lemma first_line_no_lf (s : string) : has_lf s = false -> first_line s = s.
Proof.
  intros H. rewrite <- (append_nil_r s) at 1.
  now rewrite (first_line_app s "" H), append_nil_r.
Qed.

Lemma first_line_app_nl (a b : string) :
  first_line (a ++ nl ++ b) = first_line a.
Proof.
  rewrite !first_line_hd, lines_app_nl.
  pose proof (lines_nonempty a) as H.
  now destruct (lines a).
Qed.

Lemma last_app_cons (l l' : list string) (x d : string) :
  last (l ++ x :: l') d = last (x :: l') d.
Proof.
  induction l as [|y l IH]; [reflexivity |].
  change ((y :: l) ++ x :: l')%list with (y :: (l ++ x :: l'))%list.
  cbn [last]. destruct (l ++ x :: l')%list eqn:E; [| exact IH].
  now destruct l.
Qed.

Lemma removelast_app_cons (l l' : list string) (x : string) :
  removelast (l ++ x :: l') = (l ++ removelast (x :: l'))%list.
Proof. apply removelast_app. discriminate. Qed.

Lemma length_append (a b : string) :
  String.length (a ++ b) = (String.length a + String.length b)%nat.
Proof. induction a as [|x a IH]; simpl; [reflexivity | now rewrite IH]. Qed.

(** Texts that agree once the same suffix is appended are equal, and
    likewise for a prefix. *)
Lemma append_inv_tail (a b c : string) : a ++ c = b ++ c -> a = b.
Proof.
  revert b. induction a as [|x a IH]; intros [|y b] H.
  - reflexivity.
  - apply (f_equal String.length) in H.
    rewrite !length_append in H. cbn [String.length] in H. lia.
  - apply (f_equal String.length) in H.
    rewrite !length_append in H. cbn [String.length] in H. lia.
  - cbn [append] in H. injection H as -> H. now rewrite (IH b H).
Qed.

Lemma append_inv_head (a b c : string) : a ++ b = a ++ c -> b = c.
Proof.
  induction a as [|x a IH]; cbn [append]; intros H; [exact H |].
  injection H as H. exact (IH H).
Qed.

Lemma is_ascii_wellformed (s : string) :
  is_ascii s = true -> utf8_wellformed s = true.
Proof.
  induction s as [|c s IH]; [reflexivity |].
  cbn [is_ascii]. intros H. apply andb_true_iff in H as [Hc Hs].
  cbn [utf8_wellformed].
  replace (between 0 127 c) with true; [exact (IH Hs) |].
  destruct c as [b0 b1 b2 b3 b4 b5 b6 b7]. cbn [ascii_char] in Hc.
  destruct b7; [discriminate |].
  now destruct b0, b1, b2, b3, b4, b5, b6.
Qed.

End TextFacts.

(* ===================================================================== *)
(** * Facts about the runtime fragment *)
(* ===================================================================== *)

Section RuntimeFacts.

Lemma write_stdout_twice (a b : string) (w : Py.world) :
  Py.write_stdout b (Py.write_stdout a w) = Py.write_stdout (a ++ b) w.
Proof. unfold Py.write_stdout; simpl. now rewrite append_assoc. Qed.

Lemma write_stdout_nothing (w : Py.world) : Py.write_stdout "" w = w.
Proof. destruct w. unfold Py.write_stdout; simpl. now rewrite append_nil_r. Qed.

(** What the stream has accepted does not change what it accepts. *)
Lemma encodable_write_stdout (t s : string) (w : Py.world) :
  Py.encodable (Py.write_stdout t w) s = Py.encodable w s.
Proof. reflexivity. Qed.

Lemma write_accepted (text : string) (w : Py.world) :
  Py.encodable w text = true ->
  Py.write text w = (Py.Returned tt, Py.write_stdout text w).
Proof. intros H. unfold Py.write. now rewrite H. Qed.

Lemma write_refused (text : string) (w : Py.world) :
  Py.encodable w text = false ->
  Py.write text w = (Py.Raised Py.UnicodeEncodeError, w).
Proof. intros H. unfold Py.write. now rewrite H. Qed.

Lemma write_ascii (text : string) (w : Py.world) :
  Text.is_ascii text = true ->
  Py.write text w = (Py.Returned tt, Py.write_stdout text w).
Proof.
  intros H. apply write_accepted. unfold Py.encodable. now rewrite H.
Qed.

(** When the stream accepts every argument, [print] writes them joined
    by spaces and ended by a line feed. *)
Lemma write_args_accepted (args : list string) (w : Py.world) :
  forallb (Py.encodable w) args = true ->
  Py.write_args args w
  = (Py.Returned tt, Py.write_stdout (String.concat " " args) w).
Proof.
  revert w. induction args as [|a rest IH]; intros w H.
  - cbn. now rewrite write_stdout_nothing.
  - cbn [forallb] in H. apply andb_true_iff in H as [Ha Hrest].
    destruct rest as [|b rest].
    + cbn [Py.write_args String.concat]. now apply write_accepted.
    + cbn [Py.write_args]. unfold Py.bind at 1.
      rewrite (write_accepted a w Ha).
      unfold Py.bind at 1. rewrite write_ascii by reflexivity.
      rewrite IH by exact Hrest.
      rewrite !write_stdout_twice. cbn [String.concat].
      now rewrite ?append_assoc.
Qed.

Lemma print_accepted (args : list string) (w : Py.world) :
  forallb (Py.encodable w) args = true ->
  Py.print args w
  = (Py.Returned tt, Py.write_stdout (String.concat " " args ++ Text.nl) w).
Proof.
  intros H. unfold Py.print, Py.bind.
  rewrite (write_args_accepted args w H).
  rewrite write_ascii by reflexivity. now rewrite write_stdout_twice.
Qed.

(** A second argument the stream refuses: the first one and the
    separator are written, then [UnicodeEncodeError] is raised. *)
Lemma print_second_refused (label text : string) (w : Py.world) :
  Text.is_ascii label = true ->
  Py.encodable w text = false ->
  Py.print [label; text] w
  = (Py.Raised Py.UnicodeEncodeError, Py.write_stdout (label ++ " ") w).
Proof.
  intros Hl Ht. unfold Py.print. cbn [Py.write_args].
  unfold Py.bind. rewrite (write_ascii label w Hl).
  rewrite write_ascii by reflexivity.
  rewrite write_refused by exact Ht.
  now rewrite write_stdout_twice.
Qed.

Lemma len_short (argv : list string) :
  (length argv < 2)%nat -> (Py.len argv <? 2) = true.
Proof. intros H. unfold Py.len. apply Z.ltb_lt. lia. Qed.

Lemma len_long (argv : list string) :
  (2 <= length argv)%nat -> (Py.len argv <? 2) = false.
Proof. intros H. unfold Py.len. apply Z.ltb_ge. lia. Qed.

(** Subscription at index 1 succeeds as soon as the list has two items,
    and leaves the world alone; on a shorter list it raises. *)
Lemma getitem_1 (prog P : string) (rest : list string) (w : Py.world) :
  Py.getitem (prog :: P :: rest) 1 w = (Py.Returned P, w).
Proof.
  unfold Py.getitem. change (1 <? 0) with false. cbv iota.
  replace (Py.len (prog :: P :: rest) <=? 1) with false; [reflexivity |].
  symmetry. apply Z.leb_gt. unfold Py.len. cbn [length]. lia.
Qed.

Lemma getitem_1_short (argv : list string) (w : Py.world) :
  (length argv < 2)%nat ->
  Py.getitem argv 1 w = (Py.Raised Py.IndexError, w).
Proof.
  intros H. unfold Py.getitem. change (1 <? 0) with false. cbv iota.
  replace (Py.len argv <=? 1) with true; [reflexivity |].
  symmetry. apply Z.leb_le. unfold Py.len. lia.
Qed.

(** A list with two items or more, taken apart. *)
Lemma two_items (argv : list string) :
  (2 <= length argv)%nat ->
  exists prog P rest, argv = prog :: P :: rest.
Proof.
  destruct argv as [|prog [|P rest]]; cbn [length]; intros H; try lia.
  now exists prog, P, rest.
Qed.

(** Opening a file that does not exist fails: a program that opened its
    argument would depend on the file system. *)
Lemma open_read_missing (path : string) (w : Py.world) :
  Py.files w path = None ->
  Py.open_read path w = (Py.Raised Py.FileNotFoundError, w).
Proof. intros H. unfold Py.open_read. now rewrite H. Qed.

Lemma nth_error_1_short (argv : list string) :
  (length argv < 2)%nat -> nth_error argv 1 = None.
Proof. intros H. apply nth_error_None. lia. Qed.

End RuntimeFacts.

(* ===================================================================== *)
(** * Facts about the script *)
(* ===================================================================== *)

Section ScriptFacts.

(** The branches of [main]: no path; a path the standard output accepts;
    a path it refuses. *)
Lemma main_usage (argv : list string) (w : Py.world) :
  (length argv < 2)%nat ->
  main argv w = (Py.Returned tt, Py.write_stdout (usage_line ++ Text.nl) w).
Proof.
  intros H. unfold main. rewrite (len_short argv H).
  unfold Py.bind. now rewrite print_accepted by reflexivity.
Qed.

Lemma main_path (prog P : string) (rest : list string) (w : Py.world) :
  Py.encodable w P = true ->
  main (prog :: P :: rest) w = (Py.Returned tt, Py.write_stdout (path_text P) w).
Proof.
  intros HP. unfold main. rewrite len_long by (cbn [length]; lia).
  unfold Py.bind at 1. rewrite getitem_1.
  unfold Py.bind at 1.
  rewrite print_accepted by (cbn [forallb]; now rewrite HP).
  unfold Py.bind at 1. rewrite print_accepted by reflexivity.
  unfold Py.bind at 1. rewrite print_accepted by reflexivity.
  rewrite print_accepted by reflexivity.
  rewrite !write_stdout_twice.
  do 2 f_equal. cbn [String.concat]. unfold path_text, echo_line.
  now rewrite !append_assoc.
Qed.

Lemma main_path_refused (prog P : string) (rest : list string) (w : Py.world) :
  Py.encodable w P = false ->
  main (prog :: P :: rest) w
  = (Py.Raised Py.UnicodeEncodeError, Py.write_stdout "CSV path: " w).
Proof.
  intros HP. unfold main. rewrite len_long by (cbn [length]; lia).
  unfold Py.bind at 1. rewrite getitem_1.
  unfold Py.bind at 1.
  now rewrite (print_second_refused "CSV path:" P w eq_refl HP).
Qed.

(** [main] reads nothing of its arguments but the item at index 1. *)
Lemma main_reads_index_1 (a b : list string) (w : Py.world) :
  nth_error a 1 = nth_error b 1 -> main a w = main b w.
Proof.
  intros H.
  destruct (Nat.lt_ge_cases (length a) 2) as [Ha | Ha];
    destruct (Nat.lt_ge_cases (length b) 2) as [Hb | Hb].
  - now rewrite (main_usage a w Ha), (main_usage b w Hb).
  - destruct (two_items b Hb) as (prog & Q & rest & ->).
    rewrite (nth_error_1_short a Ha) in H. discriminate H.
  - destruct (two_items a Ha) as (prog & P & rest & ->).
    rewrite (nth_error_1_short b Hb) in H. discriminate H.
  - destruct (two_items a Ha) as (prog & P & rest & ->).
    destruct (two_items b Hb) as (prog' & Q & rest' & ->).
    cbn [nth_error] in H. injection H as <-.
    destruct (Py.encodable w P) eqn:HP.
    + now rewrite !main_path.
    + now rewrite !main_path_refused.
Qed.

(** Compiling touches the standard error only. *)
Lemma compile_script_stdout (w : Py.world) :
  Py.stdout (compile_script w) = Py.stdout w.
Proof. unfold compile_script. now destruct (Py.warns_invalid_escape w). Qed.

Lemma compile_script_encodable (w : Py.world) (s : string) :
  Py.encodable (compile_script w) s = Py.encodable w s.
Proof. unfold compile_script. now destruct (Py.warns_invalid_escape w). Qed.


(** The three kinds of run. *)
Lemma run_script_usage (argv : list string) (w : Py.world) :
  (length argv < 2)%nat ->
  run_script argv w
  = (0, Py.write_stdout (usage_line ++ Text.nl) (compile_script w)).
Proof. intros H. unfold run_script. now rewrite (main_usage argv _ H). Qed.

Lemma run_script_path (prog P : string) (rest : list string) (w : Py.world) :
  Py.encodable w P = true ->
  run_script (prog :: P :: rest) w
  = (0, Py.write_stdout (path_text P) (compile_script w)).
Proof.
  intros H. unfold run_script.
  now rewrite main_path by (now rewrite compile_script_encodable).
Qed.

Lemma run_script_refused (prog P : string) (rest : list string) (w : Py.world) :
  Py.encodable w P = false ->
  run_script (prog :: P :: rest) w
  = (1, Py.report_stderr (Py.Traceback Py.UnicodeEncodeError)
          (Py.write_stdout "CSV path: " (compile_script w))).
Proof.
  intros H. unfold run_script.
  now rewrite main_path_refused by (now rewrite compile_script_encodable).
Qed.

Lemma run_script_reads_index_1 (a b : list string) (w : Py.world) :
  nth_error a 1 = nth_error b 1 -> run_script a w = run_script b w.
Proof.
  intros H. unfold run_script.
  now rewrite (main_reads_index_1 a b _ H).
Qed.

(** The text added to the standard output in each kind of run. *)
Lemma output_usage (argv : list string) (w : Py.world) :
  (length argv < 2)%nat -> output w argv = usage_line ++ Text.nl.
Proof.
  intros H. unfold output. rewrite (run_script_usage argv _ H).
  cbn [snd Py.write_stdout Py.stdout]. now rewrite compile_script_stdout.
Qed.

Lemma output_path (prog P : string) (rest : list string) (w : Py.world) :
  Py.encodable w P = true -> output w (prog :: P :: rest) = path_text P.
Proof.
  intros H. unfold output. rewrite run_script_path by exact H.
  cbn [snd Py.write_stdout Py.stdout]. now rewrite compile_script_stdout.
Qed.

Lemma output_refused (prog P : string) (rest : list string) (w : Py.world) :
  Py.encodable w P = false -> output w (prog :: P :: rest) = "CSV path: ".
Proof.
  intros H. unfold output. rewrite run_script_refused by exact H.
  cbn [snd Py.report_stderr Py.write_stdout Py.stdout].
  now rewrite compile_script_stdout.
Qed.

Lemma transcript_output (argv : list string) :
  transcript argv = output Py.empty_world argv.
Proof. reflexivity. Qed.

Lemma transcript_usage (argv : list string) :
  (length argv < 2)%nat -> transcript argv = usage_line ++ Text.nl.
Proof. intros H. rewrite transcript_output. now apply output_usage. Qed.

(** A run adds its output after what the standard output held. *)
Lemma run_script_stdout (argv : list string) (w : Py.world) :
  Py.stdout (snd (run_script argv w)) = Py.stdout w ++ output w argv.
Proof.
  destruct (Nat.lt_ge_cases (length argv) 2) as [H | H].
  - rewrite (output_usage argv w H), (run_script_usage argv w H).
    cbn [snd Py.write_stdout Py.stdout]. now rewrite compile_script_stdout.
  - destruct (two_items argv H) as (prog & P & rest & ->).
    destruct (Py.encodable w P) eqn:HP.
    + rewrite (output_path _ _ _ _ HP), (run_script_path _ _ _ _ HP).
      cbn [snd Py.write_stdout Py.stdout]. now rewrite compile_script_stdout.
    + rewrite (output_refused _ _ _ _ HP), (run_script_refused _ _ _ _ HP).
      cbn [snd Py.report_stderr Py.write_stdout Py.stdout].
      now rewrite compile_script_stdout.
Qed.

(** The exit status tells whether the path could be printed. *)
Lemma run_script_status (argv : list string) (w : Py.world) :
  fst (run_script argv w) = if path_printable w argv then 0 else 1.
Proof.
  unfold path_printable.
  destruct (Nat.lt_ge_cases (length argv) 2) as [H | H].
  - now rewrite (nth_error_1_short argv H), (run_script_usage argv w H).
  - destruct (two_items argv H) as (prog & P & rest & ->).
    cbn [nth_error]. destruct (Py.encodable w P) eqn:HP.
    + now rewrite run_script_path.
    + now rewrite run_script_refused.
Qed.

(** The lines of the text printed for a path. *)
Lemma lines_path_text (P : string) :
  Text.lines (path_text P)
  = (Text.lines ("CSV path: " ++ P)
       ++ [run_line; copy_line; insert_line; ""])%list.
Proof. unfold path_text, echo_line. now rewrite lines_app_nl. Qed.

(** The text printed for a path determines the path, and is never the
    usage text. *)
Lemma path_text_inj (P Q : string) : path_text P = path_text Q -> P = Q.
Proof.
  unfold path_text, echo_line. rewrite !append_assoc.
  cbn [append]. intros H. injection H as H.
  now apply append_inv_tail in H.
Qed.

Lemma usage_is_no_path_text (P : string) : usage_line ++ Text.nl <> path_text P.
Proof. unfold path_text, echo_line. cbn. discriminate. Qed.

End ScriptFacts.

(* ===================================================================== *)
(** * The specification, claim by claim *)
(* ===================================================================== *)

Section PathPresent.

(** C1, as stated, fails: a path that the standard output cannot encode
    (here the byte FF on a strict UTF-8 stream) stops [main] inside the
    first [print], after the label; the instructions are not printed. *)
Lemma prints_path_text_fails :
  ~ prints_path_text Py.empty_world ["scripts/import_registry.py"; byte_FF].
Proof.
  intros (P & HP & H). cbn [nth_error] in HP. injection HP as <-.
  vm_compute in H. discriminate H.
Qed.

(** C1, amended.  Whenever the argument list has at least two tokens and
    the standard output can encode the token at index 1, [main] appends
    to the standard output, in this order: the label "CSV path:" followed
    by that token as received, the line telling to run psql on
    db/staging_import.sql, the line showing the \copy command for
    staging_units, and the line telling to run the INSERT statements of
    staging_import.sql; each is ended by a line feed. *)
Theorem path_present_output (argv : list string) (w : Py.world) :
  (2 <= length argv)%nat ->
  path_printable w argv = true ->
  prints_path_text w argv.
Proof.
  intros H HP. destruct (two_items argv H) as (prog & P & rest & ->).
  unfold path_printable in HP. cbn [nth_error] in HP.
  exists P. split; [reflexivity |].
  rewrite main_path by exact HP. cbn [snd Py.stdout Py.write_stdout].
  unfold path_text, echo_line. now rewrite !append_assoc.
Qed.

(** The run of Scenario A: one user argument, myfile.csv. *)
Lemma path_present_output_witness :
  prints_path_text Py.empty_world ["scripts/import_registry.py"; "myfile.csv"].
Proof.
  apply (path_present_output
           ["scripts/import_registry.py"; "myfile.csv"] Py.empty_world).
  - simpl. lia.
  - reflexivity.
Defined.

(** C2, as stated, fails twice: a path holding a line feed is echoed as
    it is, so the first line of the output stops inside the path; and a
    path the standard output cannot encode is not echoed at all. *)
Lemma first_line_is_echo_fails :
  ~ first_line_is_echo Py.empty_world
      ["scripts/import_registry.py"; "a" ++ Text.nl ++ "b"]
      ("a" ++ Text.nl ++ "b")
  /\ ~ first_line_is_echo Py.empty_world
         ["scripts/import_registry.py"; byte_FF] byte_FF.
Proof.
  split; unfold first_line_is_echo; vm_compute; discriminate.
Qed.

(** C2, amended.  For every first user argument [P] the output begins
    with "CSV path: "; when the standard output can encode [P], the
    output begins with "CSV path: " followed by [P] unchanged and a line
    feed, and its first line is "CSV path: " followed by the first line
    of [P]: exactly "CSV path: " followed by [P] when [P] holds no line
    feed. *)
Theorem echo_of_any_path (prog P : string) (rest : list string)
        (w : Py.world) :
  Text.starts_with "CSV path: " (output w (prog :: P :: rest)) = true
  /\ (Py.encodable w P = true ->
      Text.starts_with ("CSV path: " ++ P ++ Text.nl)
                       (output w (prog :: P :: rest)) = true
      /\ Text.first_line (output w (prog :: P :: rest))
         = "CSV path: " ++ Text.first_line P
      /\ (Text.has_lf P = false -> first_line_is_echo w (prog :: P :: rest) P)).
Proof.
  split.
  - destruct (Py.encodable w P) eqn:HP.
    + now rewrite (output_path _ _ _ _ HP).
    + now rewrite (output_refused _ _ _ _ HP).
  - intros HP. unfold first_line_is_echo. rewrite (output_path _ _ _ _ HP).
    assert (Hfirst : Text.first_line (path_text P)
                     = "CSV path: " ++ Text.first_line P).
    { unfold path_text, echo_line.
      rewrite first_line_app_nl. now apply first_line_app. }
    split; [| split].
    + apply starts_with_iff. unfold path_text, echo_line.
      eexists. rewrite !append_assoc. reflexivity.
    + exact Hfirst.
    + intros H. rewrite Hfirst. now rewrite (first_line_no_lf P H).
Qed.

(** A path with a space and no line feed is echoed on the first line. *)
Lemma echo_of_any_path_witness :
  first_line_is_echo Py.empty_world
    ["scripts/import_registry.py"; "my file.csv"] "my file.csv".
Proof.
  apply (proj2 (echo_of_any_path "scripts/import_registry.py" "my file.csv" []
                                 Py.empty_world)).
  - reflexivity.
  - reflexivity.
Defined.

(** C10, as stated, fails twice: with a line feed inside the path the
    output has five newline-terminated lines, and with a path the
    standard output cannot encode it has none. *)
Lemma four_lines_exactly_fails :
  ~ four_lines_exactly Py.empty_world
      ["scripts/import_registry.py"; "a" ++ Text.nl ++ "b"]
      ("a" ++ Text.nl ++ "b")
  /\ ~ four_lines_exactly Py.empty_world
         ["scripts/import_registry.py"; byte_FF] byte_FF.
Proof.
  split; unfold four_lines_exactly; vm_compute; intros [H _]; discriminate.
Qed.

(** C10, amended.  When a path argument [P] is present and the standard
    output can encode it, the output is the segments of "CSV path: "
    followed by [P], then the three instructional lines, every line ended
    by a line feed and nothing after the last one: 4 lines plus one per
    line feed of [P].  When [P] holds no line feed these are exactly four
    newline-terminated lines, the path echo and the three
    instructions. *)
Theorem path_output_lines (prog P : string) (rest : list string)
        (w : Py.world) :
  Py.encodable w P = true ->
  Text.lines (output w (prog :: P :: rest))
    = (Text.lines ("CSV path: " ++ P)
         ++ [run_line; copy_line; insert_line; ""])%list
  /\ length (Text.terminated_lines (output w (prog :: P :: rest)))
     = (4 + Text.count_lf P)%nat
  /\ Text.trailing (output w (prog :: P :: rest)) = ""
  /\ (Text.has_lf P = false -> four_lines_exactly w (prog :: P :: rest) P).
Proof.
  intros HP. unfold four_lines_exactly.
  rewrite (output_path _ _ _ _ HP).
  pose proof (lines_path_text P) as Hlines.
  split; [exact Hlines |]. split; [| split].
  - rewrite length_terminated_lines.
    unfold path_text, echo_line.
    rewrite !count_lf_app. cbn. lia.
  - unfold Text.trailing. rewrite Hlines. now rewrite last_app_cons.
  - intros H. unfold Text.terminated_lines, Text.trailing.
    rewrite Hlines, removelast_app_cons, last_app_cons.
    assert (Hecho : Text.lines ("CSV path: " ++ P) = ["CSV path: " ++ P])
      by (apply lines_no_lf; exact H).
    rewrite Hecho. split; reflexivity.
Qed.

(** Scenario A prints exactly four lines. *)
Lemma path_output_lines_witness :
  four_lines_exactly Py.empty_world
    ["scripts/import_registry.py"; "myfile.csv"] "myfile.csv".
Proof.
  apply (path_output_lines "scripts/import_registry.py" "myfile.csv" []
                           Py.empty_world eq_refl).
  reflexivity.
Defined.

End PathPresent.

Section PathMissing.

(** C3.  With fewer than two tokens in the argument list, [main] returns
    normally, the script ends with status 0, and the output is exactly
    the usage line: neither the path echo nor any of the three
    instructional lines occurs in it. *)
Theorem missing_path_prints_usage_only (argv : list string) (w : Py.world) :
  (length argv < 2)%nat ->
  main argv w
    = (Py.Returned tt,
       Py.write_stdout
         ("Usage: python scripts/import_registry.py /path/to/ect66_units.csv"
          ++ Text.nl) w)
  /\ fst (run_script argv w) = 0
  /\ Text.lines (transcript argv)
     = ["Usage: python scripts/import_registry.py /path/to/ect66_units.csv"; ""]
  /\ Text.contains "CSV path:" (transcript argv) = false
  /\ Text.contains run_line (transcript argv) = false
  /\ Text.contains copy_line (transcript argv) = false
  /\ Text.contains insert_line (transcript argv) = false.
Proof.
  intros H. rewrite (transcript_usage argv H), (run_script_usage argv w H).
  split; [exact (main_usage argv w H) |].
  repeat split; reflexivity.
Qed.

(** The run with the program name alone. *)
Lemma missing_path_prints_usage_only_witness :
  main ["scripts/import_registry.py"] Py.empty_world
    = (Py.Returned tt,
       Py.write_stdout
         ("Usage: python scripts/import_registry.py /path/to/ect66_units.csv"
          ++ Text.nl) Py.empty_world)
  /\ fst (run_script ["scripts/import_registry.py"] Py.empty_world) = 0
  /\ Text.lines (transcript ["scripts/import_registry.py"])
     = ["Usage: python scripts/import_registry.py /path/to/ect66_units.csv"; ""]
  /\ Text.contains "CSV path:" (transcript ["scripts/import_registry.py"]) = false
  /\ Text.contains run_line (transcript ["scripts/import_registry.py"]) = false
  /\ Text.contains copy_line (transcript ["scripts/import_registry.py"]) = false
  /\ Text.contains insert_line (transcript ["scripts/import_registry.py"]) = false.
Proof.
  apply (missing_path_prints_usage_only
           ["scripts/import_registry.py"] Py.empty_world).
  simpl. lia.
Defined.

(** C4.  With no user-supplied argument the output is a single
    newline-terminated line and nothing else; that line contains
    "Usage:" and the reference path scripts/import_registry.py. *)
Theorem no_user_argument_usage_line (argv : list string) (w : Py.world) :
  user_args argv = [] ->
  exists u,
    Py.stdout (snd (run_script argv w)) = Py.stdout w ++ u ++ Text.nl
    /\ Text.terminated_lines (transcript argv) = [u]
    /\ Text.trailing (transcript argv) = ""
    /\ Text.contains "Usage:" u = true
    /\ Text.contains "scripts/import_registry.py" u = true.
Proof.
  intros H.
  assert (Hlen : (length argv < 2)%nat).
  { destruct argv as [|prog [|P rest]]; cbn [length]; try lia.
    discriminate H. }
  exists usage_line.
  rewrite (run_script_stdout argv w), (output_usage argv w Hlen).
  rewrite (transcript_usage argv Hlen).
  repeat split; reflexivity.
Qed.

(** The run with the program name alone prints the usage line. *)
Lemma no_user_argument_usage_line_witness :
  exists u,
    Py.stdout (snd (run_script ["scripts/import_registry.py"] Py.empty_world))
      = Py.stdout Py.empty_world ++ u ++ Text.nl
    /\ Text.terminated_lines (transcript ["scripts/import_registry.py"]) = [u]
    /\ Text.trailing (transcript ["scripts/import_registry.py"]) = ""
    /\ Text.contains "Usage:" u = true
    /\ Text.contains "scripts/import_registry.py" u = true.
Proof.
  apply (no_user_argument_usage_line
           ["scripts/import_registry.py"] Py.empty_world).
  reflexivity.
Defined.

End PathMissing.

Section EveryInvocation.

(** The resources a run does not look at can be exchanged before or
    after it. *)
Lemma main_with_resources (argv : list string) (w : Py.world)
      (fs env : string -> option string) (net : list string) :
  main argv (Py.with_resources fs env net w)
  = (fst (main argv w), Py.with_resources fs env net (snd (main argv w))).
Proof.
  destruct (Nat.lt_ge_cases (length argv) 2) as [H | H].
  - now rewrite !(main_usage argv _ H).
  - destruct (two_items argv H) as (prog & P & rest & ->).
    destruct (Py.encodable w P) eqn:HP.
    + now rewrite !main_path by exact HP.
    + now rewrite !main_path_refused by exact HP.
Qed.



(** C5, as stated, fails: the same argument list gives another output
    and another status on a standard output that encodes other texts. *)
Lemma same_run_fails :
  ~ same_run Py.empty_world lenient_world
      ["scripts/import_registry.py"; byte_FF].
Proof. unfold same_run. vm_compute. intros [H _]. discriminate H. Qed.

(** C5, amended.  The output is a function of the argument list and of
    whether the standard output can encode the path: two runs on the same
    arguments for which that is the same add the same text to the
    standard output and end with the same status, whatever else differs
    between their environments; and when the path is encodable one same
    text, made of the three instructional lines, follows the path echo
    for every path. *)
Theorem output_is_function_of_arguments :
  (forall (argv : list string) (w1 w2 : Py.world),
      path_printable w1 argv = path_printable w2 argv ->
      same_run w1 w2 argv)
  /\ (exists tail,
        Text.lines tail = [run_line; copy_line; insert_line; ""]
        /\ forall (prog P : string) (rest : list string) (w : Py.world),
             Py.encodable w P = true ->
             output w (prog :: P :: rest)
             = "CSV path: " ++ P ++ Text.nl ++ tail).
Proof.
  split.
  - intros argv w1 w2 H. unfold same_run.
    rewrite !run_script_status, H. split; [| reflexivity].
    destruct (Nat.lt_ge_cases (length argv) 2) as [Hlen | Hlen].
    + now rewrite !(output_usage argv _ Hlen).
    + destruct (two_items argv Hlen) as (prog & P & rest & ->).
      unfold path_printable in H. cbn [nth_error] in H.
      destruct (Py.encodable w2 P) eqn:HP.
      * now rewrite !output_path.
      * now rewrite !output_refused.
  - exists (run_line ++ Text.nl ++ copy_line ++ Text.nl
            ++ insert_line ++ Text.nl).
    split; [reflexivity |].
    intros prog P rest w HP. rewrite (output_path _ _ _ _ HP).
    unfold path_text, echo_line. now rewrite !append_assoc.
Qed.

(** Two environments that differ in everything but what the standard
    output can encode of the path. *)
Lemma output_is_function_of_arguments_witness :
  same_run Py.empty_world lenient_world
    ["scripts/import_registry.py"; "myfile.csv"].
Proof.
  apply (proj1 output_is_function_of_arguments).
  reflexivity.
Defined.

(** C6, as stated, fails: when the standard output cannot encode the
    path, [UnicodeEncodeError] escapes and the exit status is 1. *)
Lemma exit_status_nonzero :
  fst (run_script ["scripts/import_registry.py"; byte_FF] Py.empty_world)
  <> 0.
Proof. vm_compute. discriminate. Qed.

(** C6, amended.  The script ends with exit status 0 for every argument
    list whose path, if there is one, the standard output can encode (and
    with status 1 otherwise); in particular the missing-path case ends
    with status 0, its only report being the usage line on the standard
    output. *)
Theorem exit_status_of_run (argv : list string) (w : Py.world) :
  fst (run_script argv w) = (if path_printable w argv then 0 else 1)
  /\ (path_printable w argv = true -> fst (run_script argv w) = 0)
  /\ ((length argv < 2)%nat ->
      fst (run_script argv w) = 0
      /\ Py.stdout (snd (run_script argv w))
         = Py.stdout w ++ usage_line ++ Text.nl).
Proof.
  split; [apply run_script_status |]. split.
  - intros H. now rewrite run_script_status, H.
  - intros H. rewrite run_script_stdout, (output_usage argv w H).
    now rewrite (run_script_usage argv w H).
Qed.

(** Scenario A and Scenario B both end with status 0. *)
Lemma exit_status_of_run_witness :
  fst (run_script ["scripts/import_registry.py"; "myfile.csv"] Py.empty_world) = 0
  /\ (fst (run_script [] Py.empty_world) = 0
      /\ Py.stdout (snd (run_script [] Py.empty_world))
         = Py.stdout Py.empty_world ++ usage_line ++ Text.nl).
Proof.
  split.
  - apply (proj1 (proj2 (exit_status_of_run
                           ["scripts/import_registry.py"; "myfile.csv"]
                           Py.empty_world))).
    reflexivity.
  - apply (proj2 (proj2 (exit_status_of_run [] Py.empty_world))).
    simpl. lia.
Defined.

(** C7, as stated, fails: on a path the standard output cannot encode,
    [main] does not return, [UnicodeEncodeError] propagates. *)
Lemma main_raises_on_unencodable_path :
  fst (main ["scripts/import_registry.py"; byte_FF] Py.empty_world)
  <> Py.Returned tt.
Proof. vm_compute. discriminate. Qed.

(** C7, amended.  For every argument list [main] never raises
    [IndexError]: the length check guards the access to index 1.  It
    returns normally whenever the standard output can encode the path, if
    there is one.  The path is never opened: whatever files exist, the
    outcome of [main] is the same, and the file system after the run is
    the one before it. *)
Theorem main_errors (argv : list string) (w : Py.world) :
  fst (main argv w) <> Py.Raised Py.IndexError
  /\ (path_printable w argv = true -> fst (main argv w) = Py.Returned tt)
  /\ (forall (fs env : string -> option string) (net : list string),
        fst (main argv (Py.with_resources fs env net w)) = fst (main argv w))
  /\ Py.files (snd (main argv w)) = Py.files w.
Proof.
  split; [| split; [| split]].
  - destruct (Nat.lt_ge_cases (length argv) 2) as [H | H].
    + now rewrite (main_usage argv w H).
    + destruct (two_items argv H) as (prog & P & rest & ->).
      destruct (Py.encodable w P) eqn:HP.
      * now rewrite main_path.
      * now rewrite main_path_refused.
  - unfold path_printable.
    destruct (Nat.lt_ge_cases (length argv) 2) as [H | H].
    + now rewrite (main_usage argv w H).
    + destruct (two_items argv H) as (prog & P & rest & ->).
      cbn [nth_error]. intros HP. now rewrite main_path.
  - intros fs env net. now rewrite main_with_resources.
  - destruct (Nat.lt_ge_cases (length argv) 2) as [H | H].
    + now rewrite (main_usage argv w H).
    + destruct (two_items argv H) as (prog & P & rest & ->).
      destruct (Py.encodable w P) eqn:HP.
      * now rewrite main_path.
      * now rewrite main_path_refused.
Qed.

(** A path that names no file is printed all the same. *)
Lemma main_errors_witness :
  fst (main ["scripts/import_registry.py"; "/no/such/file.csv"] Py.empty_world)
  = Py.Returned tt.
Proof.
  apply (proj1 (proj2 (main_errors
                         ["scripts/import_registry.py"; "/no/such/file.csv"]
                         Py.empty_world))).
  reflexivity.
Defined.




(** C9.  With two user-supplied arguments or more, the run is the one of
    the argument list cut after the first user-supplied argument: same
    exit status, same final environment, same output. *)
Theorem extra_arguments_ignored (argv : list string) (w : Py.world) :
  (2 <= length (user_args argv))%nat ->
  run_script argv w = run_script (firstn 2 argv) w
  /\ main argv w = main (firstn 2 argv) w
  /\ transcript argv = transcript (firstn 2 argv).
Proof.
  intros H.
  destruct argv as [|prog [|P rest]]; cbn [user_args tl length] in H; try lia.
  cbn [firstn].
  assert (Hsame : nth_error (prog :: P :: rest) 1 = nth_error [prog; P] 1)
    by reflexivity.
  split; [exact (run_script_reads_index_1 _ _ w Hsame) |].
  split; [exact (main_reads_index_1 _ _ w Hsame) |].
  unfold transcript. now rewrite (run_script_reads_index_1 _ _ _ Hsame).
Qed.

(** Three user arguments: the last two change nothing. *)
Lemma extra_arguments_ignored_witness :
  run_script ["scripts/import_registry.py"; "a.csv"; "b.csv"; "--force"] Py.empty_world
  = run_script (firstn 2 ["scripts/import_registry.py"; "a.csv"; "b.csv"; "--force"])
      Py.empty_world
  /\ main ["scripts/import_registry.py"; "a.csv"; "b.csv"; "--force"] Py.empty_world
     = main (firstn 2 ["scripts/import_registry.py"; "a.csv"; "b.csv"; "--force"])
         Py.empty_world
  /\ transcript ["scripts/import_registry.py"; "a.csv"; "b.csv"; "--force"]
     = transcript (firstn 2 ["scripts/import_registry.py"; "a.csv"; "b.csv"; "--force"]).
Proof.
  apply (extra_arguments_ignored
           ["scripts/import_registry.py"; "a.csv"; "b.csv"; "--force"]
           Py.empty_world).
  simpl. lia.
Defined.

End EveryInvocation.

(* ===================================================================== *)
(** * What the output tells about the arguments *)
(* ===================================================================== *)

Section OutputAndArguments.

(** The program name, [sys.argv[0]], has no influence on a run: status,
    output and final environment are those of the same arguments under any
    other program name; the usage line in particular always names
    scripts/import_registry.py. *)
Theorem program_name_ignored (prog prog' : string) (args : list string)
        (w : Py.world) :
  run_script (prog :: args) w = run_script (prog' :: args) w
  /\ main (prog :: args) w = main (prog' :: args) w.
Proof.
  assert (Hsame : nth_error (prog :: args) 1 = nth_error (prog' :: args) 1)
    by reflexivity.
  split.
  - exact (run_script_reads_index_1 _ _ w Hsame).
  - exact (main_reads_index_1 _ _ w Hsame).
Qed.

(** Among the argument lists whose path, if there is one, the standard
    output can encode, two give the same output exactly when they agree
    on the item at index 1, present or absent: the output tells whether
    a path was supplied and which one, and depends on nothing else. *)
Theorem same_output_iff_same_path (a b : list string) (w : Py.world) :
  path_printable w a = true ->
  path_printable w b = true ->
  (output w a = output w b <-> nth_error a 1 = nth_error b 1).
Proof.
  unfold path_printable.
  destruct (Nat.lt_ge_cases (length a) 2) as [Ha | Ha];
    destruct (Nat.lt_ge_cases (length b) 2) as [Hb | Hb].
  - intros _ _. rewrite (output_usage a w Ha), (output_usage b w Hb).
    rewrite (nth_error_1_short a Ha), (nth_error_1_short b Hb).
    now split.
  - destruct (two_items b Hb) as (prog & Q & rest & ->).
    rewrite (nth_error_1_short a Ha). cbn [nth_error]. intros _ HQ.
    rewrite (output_usage a w Ha), (output_path _ _ _ _ HQ).
    split; [intros H; now apply usage_is_no_path_text in H | discriminate].
  - destruct (two_items a Ha) as (prog & P & rest & ->).
    rewrite (nth_error_1_short b Hb). cbn [nth_error]. intros HP _.
    rewrite (output_usage b w Hb), (output_path _ _ _ _ HP).
    split; [intros H; symmetry in H; now apply usage_is_no_path_text in H
           | discriminate].
  - destruct (two_items a Ha) as (prog & P & rest & ->).
    destruct (two_items b Hb) as (prog' & Q & rest' & ->).
    cbn [nth_error]. intros HP HQ.
    rewrite (output_path _ _ _ _ HP), (output_path _ _ _ _ HQ). split.
    + intros H. now rewrite (path_text_inj P Q H).
    + intros H. now injection H as ->.
Qed.

(** Two runs that differ in the program name and in the arguments after
    the path. *)
Lemma same_output_iff_same_path_witness :
  output Py.empty_world ["import_registry.py"; "units.csv"]
  = output Py.empty_world
      ["scripts/import_registry.py"; "units.csv"; "--dry-run"]
  <-> nth_error ["import_registry.py"; "units.csv"] 1
      = nth_error ["scripts/import_registry.py"; "units.csv"; "--dry-run"] 1.
Proof.
  apply (same_output_iff_same_path
           ["import_registry.py"; "units.csv"]
           ["scripts/import_registry.py"; "units.csv"; "--dry-run"]
           Py.empty_world).
  - reflexivity.
  - reflexivity.
Defined.

(** The length check of [main] is exact: [main] ends in the usage branch
    (it returns having printed the usage line and nothing else)
    precisely for the argument lists on which [sys.argv[1]] would raise
    [IndexError]. *)
Theorem length_check_is_exact (argv : list string) (w : Py.world) :
  main argv w = (Py.Returned tt, Py.write_stdout (usage_line ++ Text.nl) w)
  <-> Py.getitem argv 1 w = (Py.Raised Py.IndexError, w).
Proof.
  destruct (Nat.lt_ge_cases (length argv) 2) as [Hlen | Hlen].
  - split; intros _; [now apply getitem_1_short | now apply main_usage].
  - destruct (two_items argv Hlen) as (prog & P & rest & ->).
    rewrite getitem_1. split; [| discriminate].
    destruct (Py.encodable w P) eqn:HP.
    + rewrite (main_path _ _ _ _ HP). intros H. exfalso.
      apply (f_equal snd) in H. apply (f_equal Py.stdout) in H.
      cbn [snd Py.stdout Py.write_stdout] in H. apply append_inv_head in H.
      symmetry in H. now apply usage_is_no_path_text in H.
    + rewrite (main_path_refused _ _ _ _ HP). discriminate.
Qed.

(** The program name alone: the usage branch, and the subscription would
    fail. *)
Lemma length_check_is_exact_witness :
  Py.getitem ["scripts/import_registry.py"] 1 Py.empty_world
  = (Py.Raised Py.IndexError, Py.empty_world).
Proof.
  apply (proj1 (length_check_is_exact
                  ["scripts/import_registry.py"] Py.empty_world)).
  reflexivity.
Defined.

(** A path the standard output cannot encode: [main] writes the label
    and the separator, then [UnicodeEncodeError] propagates out of the
    first [print]; no line is completed, none of the instructions is
    printed, the traceback is the last report on the standard error and
    the exit status is 1. *)
Theorem unencodable_path_stops_the_run (argv : list string) (w : Py.world) :
  path_printable w argv = false ->
  main argv w = (Py.Raised Py.UnicodeEncodeError, Py.write_stdout "CSV path: " w)
  /\ fst (run_script argv w) = 1
  /\ output w argv = "CSV path: "
  /\ Text.terminated_lines (output w argv) = []
  /\ Py.stderr (snd (run_script argv w))
     = (Py.stderr (compile_script w) ++ [Py.Traceback Py.UnicodeEncodeError])%list.
Proof.
  unfold path_printable.
  destruct (Nat.lt_ge_cases (length argv) 2) as [Hlen | Hlen].
  - now rewrite (nth_error_1_short argv Hlen).
  - destruct (two_items argv Hlen) as (prog & P & rest & ->).
    cbn [nth_error]. intros HP.
    rewrite (main_path_refused _ _ _ _ HP), (output_refused _ _ _ _ HP).
    rewrite (run_script_refused _ _ _ _ HP).
    repeat split; reflexivity.
Qed.

(** The byte FF as path, on a strict UTF-8 standard output. *)
Lemma unencodable_path_stops_the_run_witness :
  main ["scripts/import_registry.py"; byte_FF] Py.empty_world
  = (Py.Raised Py.UnicodeEncodeError, Py.write_stdout "CSV path: " Py.empty_world)
  /\ fst (run_script ["scripts/import_registry.py"; byte_FF] Py.empty_world) = 1
  /\ output Py.empty_world ["scripts/import_registry.py"; byte_FF] = "CSV path: "
  /\ Text.terminated_lines
       (output Py.empty_world ["scripts/import_registry.py"; byte_FF]) = []
  /\ Py.stderr (snd (run_script ["scripts/import_registry.py"; byte_FF]
                                Py.empty_world))
     = (Py.stderr (compile_script Py.empty_world)
          ++ [Py.Traceback Py.UnicodeEncodeError])%list.
Proof.
  apply (unencodable_path_stops_the_run
           ["scripts/import_registry.py"; byte_FF] Py.empty_world).
  reflexivity.
Defined.

End OutputAndArguments.
